(** * Space shooter: a shallow embedding of the simulation core of [main.cpp]

    The development follows the classes of the program one by one
    ([Particle], [Explosion], [Entity], [Bullet], [Laser], [Shield],
    [Player], [Enemy], [BossEnemy], [PowerUp], [Level], [Game]); every
    class is a module holding a record for its data members and one
    function per member function, with the object passed explicitly and
    returned when the member function mutates it.

    Numbers.  A C++ [int] is a [Z] and every arithmetic operation on it is
    followed by the 32-bit two's complement wrap-around [wrap].  A C++
    [float] is modelled by an exact rational ([Q]): rounding is left out,
    comparisons and the algebraic laws are those of the rationals.  Every
    constant used in a concrete scenario below is a dyadic rational of small
    size, for which single precision arithmetic is exact.

    What is left out: rendering ([draw], shapes, texts, the UI strings built
    by [updateUI]), sound playback and asset loading.  The sprite geometry
    of the graphics toolkit (the bounding rectangle of a sprite and the
    rectangle intersection test) and the two libm functions used by
    [Particle] are taken as an interface, [Toolkit]. *)

From Stdlib Require Import ZArith QArith Lqa Lia List String Bool.
Import ListNotations.

Local Open Scope Z_scope.
Local Open Scope list_scope.

(** ** Machine numbers *)

Abbreviation float := Q (only parsing).

Definition INT_MIN : Z := -2147483648.
Definition INT_MAX : Z := 2147483647.

(** Two's complement wrap-around of a 32-bit [int]. *)
Definition wrap (z : Z) : Z := (z + 2 ^ 31) mod 2 ^ 32 - 2 ^ 31.

Definition in_int (z : Z) : Prop := INT_MIN <= z <= INT_MAX.

Definition int_add (a b : Z) : Z := wrap (a + b).
Definition int_sub (a b : Z) : Z := wrap (a - b).
Definition int_mul (a b : Z) : Z := wrap (a * b).

(** [static_cast<float>(n)] and the implicit conversion of an [int]. *)
Definition float_of_int (n : Z) : float := inject_Z n.

(** [a <= b], [a < b], [a >= b], [a > b] on [float]. *)
Definition fle (a b : float) : bool := Qle_bool a b.
Definition flt (a b : float) : bool := negb (Qle_bool b a).
Definition fge (a b : float) : bool := fle b a.
Definition fgt (a b : float) : bool := flt b a.

(** [std::max] on [float]: [(a < b) ? b : a]. *)
Definition fmax (a b : float) : float := if flt a b then b else a.

(** ** Enumerations *)

Module GameState.
Inductive t : Set := MainMenu | Playing | BossFight | GameOver | Victory.
End GameState.

Module WeaponType.
Inductive t : Set := Basic | Double | Triple | Laser.
Definition eqb (a b : t) : bool :=
  match a, b with
  | Basic, Basic | Double, Double | Triple, Triple | Laser, Laser => true
  | _, _ => false
  end.
(** The ordinal of a tier, [Basic < Double < Triple < Laser]. *)
Definition rank (w : t) : Z :=
  match w with Basic => 0 | Double => 1 | Triple => 2 | Laser => 3 end.
End WeaponType.

Module EnemyType.
Inductive t : Set := Basic | Fast | Tanky | Boss.
End EnemyType.

Module PowerUpType.
Inductive t : Set := Health | Shield | WeaponUpgrade | ScoreBoost.
(** [static_cast<PowerUpType>(n)] for the enumerators' values 0..3; any
    other value names no enumerator. *)
Definition of_int (n : Z) : option t :=
  match n with
  | 0 => Some Health
  | 1 => Some Shield
  | 2 => Some WeaponUpgrade
  | 3 => Some ScoreBoost
  | _ => None
  end.
End PowerUpType.

(** ** Vectors, colours, the keyboard and the clock *)

Module Vector2f.
Record t : Set := mk { x : float; y : float }.
Definition add (a b : t) : t := mk (x a + x b) (y a + y b).
Definition scale (a : t) (k : float) : t := mk (x a * k) (y a * k).
End Vector2f.

Module Color.
Record t : Set := mk { r : Z; g : Z; b : Z }.
End Color.

(** The state of the keys polled with [sf::Keyboard::isKeyPressed]. *)
Module Keyboard.
Record t : Set := mk { Left : bool; Right : bool; Up : bool; Down : bool; Space : bool }.
Definition none : t := mk false false false false false.
End Keyboard.

(** [sf::Clock]: the time point of its last restart; the current time is
    supplied by the environment. *)
Module Clock.
Record t : Set := mk { start : float }.
Definition getElapsedTime (c : t) (now : float) : float := (now - start c)%Q.
Definition restart (c : t) (now : float) : t := mk now.
End Clock.

(** ** Entity *)

Module Entity.
Record t : Set := mk {
  texturePath : string;
  position : Vector2f.t;
  scale : Vector2f.t;
  rotation : float }.

(** [Entity(texturePath)]: a sprite at the origin, unscaled, unrotated. *)
Definition new (path : string) : t :=
  mk path (Vector2f.mk 0 0) (Vector2f.mk 1 1) 0%Q.

Definition setPosition (e : t) (px py : float) : t :=
  mk (texturePath e) (Vector2f.mk px py) (scale e) (rotation e).
Definition move (e : t) (dx dy : float) : t :=
  mk (texturePath e)
     (Vector2f.mk (Vector2f.x (position e) + dx) (Vector2f.y (position e) + dy))
     (scale e) (rotation e).
Definition getPosition (e : t) : Vector2f.t := position e.
Definition setScale (e : t) (sx sy : float) : t :=
  mk (texturePath e) (position e) (Vector2f.mk sx sy) (rotation e).
Definition setRotation (e : t) (angle : float) : t :=
  mk (texturePath e) (position e) (scale e) angle.
End Entity.

(** The part of the graphics toolkit and of libm the simulation calls. *)
Class Toolkit : Type := {
  FloatRect : Type;
  (** [sprite.getGlobalBounds()] of the sprite of an entity *)
  getGlobalBounds : Entity.t -> FloatRect;
  (** [sf::FloatRect::intersects] *)
  intersects : FloatRect -> FloatRect -> bool;
  cosf : float -> float;
  sinf : float -> float }.

(** ** Particle and Explosion *)

(** One draw of the three uniform distributions of [Explosion]. *)
Module ParticleSeed.
Record t : Set := mk { angle : float; speed : float; lifetime : float }.
End ParticleSeed.

Module Particle.
Record t : Set := mk {
  position : Vector2f.t;
  velocity : Vector2f.t;
  color : Color.t;
  lifetime : float;
  maxLifetime : float }.

Section WithToolkit.
Context `{Toolkit}.
Definition new (pos : Vector2f.t) (c : Color.t) (speed angle life : float) : t :=
  mk pos (Vector2f.mk (cosf angle * speed) (sinf angle * speed)) c life life.
End WithToolkit.

(** [bool update(float deltaTime)]: the particle after the call and the
    value returned. *)
Definition update (p : t) (deltaTime : float) : t * bool :=
  let p1 := mk (position p) (velocity p) (color p) (lifetime p - deltaTime) (maxLifetime p) in
  if fle (lifetime p1) 0 then (p1, false)
  else (mk (Vector2f.add (position p1) (Vector2f.scale (velocity p1) deltaTime))
           (velocity p1) (color p1) (lifetime p1) (maxLifetime p1), true).
End Particle.

Module Explosion.
Record t : Set := mk {
  position : Vector2f.t;
  particles : list Particle.t;
  isActive : bool }.

Definition colorOf (i : Z) : Color.t :=
  if Z.rem i 3 =? 0 then Color.mk 255 60 0
  else if Z.rem i 3 =? 1 then Color.mk 255 200 0
  else Color.mk 255 0 0.

Section WithToolkit.
Context `{Toolkit}.
(** [Explosion(position)]: thirty particles, the [i]-th from the [i]-th
    draw [rd i] of the random device. *)
Definition new (pos : Vector2f.t) (rd : nat -> ParticleSeed.t) : t :=
  mk pos
     (map (fun i => Particle.new pos (colorOf (Z.of_nat i))
                      (ParticleSeed.speed (rd i)) (ParticleSeed.angle (rd i))
                      (ParticleSeed.lifetime (rd i)))
          (seq 0 30))
     true.
End WithToolkit.

(** The erase loop over the particles. *)
Fixpoint updateParticles (ps : list Particle.t) (deltaTime : float) : list Particle.t :=
  match ps with
  | [] => []
  | p :: rest =>
      let (p1, alive) := Particle.update p deltaTime in
      if alive then p1 :: updateParticles rest deltaTime
      else updateParticles rest deltaTime
  end.

Definition update (e : t) (deltaTime : float) : t * bool :=
  let ps := updateParticles (particles e) deltaTime in
  (mk (position e) ps (isActive e), negb (match ps with [] => true | _ => false end)).
End Explosion.

(** ** Projectiles *)

Module Bullet.
Record t : Set := mk { entity : Entity.t; damage : float }.

Definition speed : float := 600.

(** [Bullet(texturePath, damage = 10.0f)] *)
Definition new (path : string) (dmg : float) : t :=
  mk (Entity.setScale (Entity.new path) (1 # 2) (1 # 2)) dmg.
Definition defaultDamage : float := 10.

Definition update (b : t) (deltaTime : float) : t :=
  mk (Entity.move (entity b) 0 (- speed * deltaTime)) (damage b).
Definition isOffScreen (b : t) : bool :=
  flt (Vector2f.y (Entity.getPosition (entity b))) 0.
Definition getDamage (b : t) : float := damage b.
Definition getPosition (b : t) : Vector2f.t := Entity.getPosition (entity b).
Definition setPosition (b : t) (px py : float) : t :=
  mk (Entity.setPosition (entity b) px py) (damage b).
Definition setRotation (b : t) (angle : float) : t :=
  mk (Entity.setRotation (entity b) angle) (damage b).
Definition move (b : t) (dx dy : float) : t :=
  mk (Entity.move (entity b) dx dy) (damage b).
End Bullet.

Module Laser.
Record t : Set := mk { entity : Entity.t; lifetime : float; damage : float }.

Definition new : t :=
  mk (Entity.setScale (Entity.new "assets/images/weapons/laser.png") (1 # 2) 10)
     (1 # 2) 1.
Definition update (l : t) (deltaTime : float) : t :=
  mk (entity l) (lifetime l - deltaTime) (damage l).
Definition isActive (l : t) : bool := fgt (lifetime l) 0.
Definition getDamage (l : t) : float := damage l.
Definition setPosition (l : t) (px py : float) : t :=
  mk (Entity.setPosition (entity l) px py) (lifetime l) (damage l).
End Laser.

(** ** Shield *)

Module Shield.
Record t : Set := mk { entity : Entity.t; health : float; active : bool }.

Definition new : t :=
  mk (Entity.setScale (Entity.new "assets/images/effects/shield.png") (6 # 5) (6 # 5))
     100 false.

Definition update (s : t) (deltaTime : float) : t :=
  if active s then
    let h := (health s - 10 * deltaTime)%Q in
    if fle h 0 then mk (entity s) h false else mk (entity s) h (active s)
  else s.

Definition activate (s : t) : t := mk (entity s) 100 true.

Definition isActive (s : t) : bool := active s.
Definition getHealth (s : t) : float := health s.

Definition takeDamage (s : t) (amount : float) : t :=
  let h := (health s - amount)%Q in
  if fle h 0 then mk (entity s) h false else mk (entity s) h (active s).

Definition setPosition (s : t) (p : Vector2f.t) : t :=
  mk (Entity.setPosition (entity s) (Vector2f.x p) (Vector2f.y p)) (health s) (active s).
End Shield.

(** ** Player *)

Module Player.
Record t : Set := mk {
  entity : Entity.t;
  health : Z;
  score : Z;
  weaponType : WeaponType.t;
  shootClock : Clock.t;
  shieldActive : bool;
  shield : Shield.t }.

Definition speed : float := 300.

(** [Player()], constructed at time [now]. *)
Definition new (now : float) : t :=
  mk (Entity.setScale (Entity.new "assets/images/player.png") (1 # 2) (1 # 2))
     100 0 WeaponType.Basic (Clock.mk now) false Shield.new.

Definition getPosition (p : t) : Vector2f.t := Entity.getPosition (entity p).
Definition with_entity (e : Entity.t) (p : t) : t :=
  mk e (health p) (score p) (weaponType p) (shootClock p) (shieldActive p) (shield p).
Definition with_shield (s : Shield.t) (p : t) : t :=
  mk (entity p) (health p) (score p) (weaponType p) (shootClock p) (shieldActive p) s.
Definition with_health (h : Z) (p : t) : t :=
  mk (entity p) h (score p) (weaponType p) (shootClock p) (shieldActive p) (shield p).
Definition with_score (s : Z) (p : t) : t :=
  mk (entity p) (health p) s (weaponType p) (shootClock p) (shieldActive p) (shield p).
Definition with_weaponType (w : WeaponType.t) (p : t) : t :=
  mk (entity p) (health p) (score p) w (shootClock p) (shieldActive p) (shield p).
Definition with_shootClock (c : Clock.t) (p : t) : t :=
  mk (entity p) (health p) (score p) (weaponType p) c (shieldActive p) (shield p).

Definition setPosition (p : t) (px py : float) : t :=
  with_entity (Entity.setPosition (entity p) px py) p.
Definition move (p : t) (dx dy : float) : t :=
  with_entity (Entity.move (entity p) dx dy) p.

(** [update(deltaTime)]; [kb] is the keyboard state it polls.  Each of the
    four tests reads the position left by the moves before it. *)
Definition update (kb : Keyboard.t) (p : t) (deltaTime : float) : t :=
  let p1 := if Keyboard.Left kb && fgt (Vector2f.x (getPosition p)) 0
            then move p (- speed * deltaTime) 0 else p in
  let p2 := if Keyboard.Right kb && flt (Vector2f.x (getPosition p1)) 800
            then move p1 (speed * deltaTime) 0 else p1 in
  let p3 := if Keyboard.Up kb && fgt (Vector2f.y (getPosition p2)) 0
            then move p2 0 (- speed * deltaTime) else p2 in
  let p4 := if Keyboard.Down kb && flt (Vector2f.y (getPosition p3)) 600
            then move p3 0 (speed * deltaTime) else p3 in
  if Shield.isActive (shield p4) then
    with_shield (Shield.update (Shield.setPosition (shield p4) (getPosition p4)) deltaTime) p4
  else p4.

Definition cooldown (w : WeaponType.t) : float :=
  match w with
  | WeaponType.Basic => 1 # 4
  | WeaponType.Double => 1 # 5
  | WeaponType.Triple => 3 # 20
  | WeaponType.Laser => 1
  end.

(** [canShoot()] at time [now]: the player after the call (its clock is
    restarted on [true]) and the value returned. *)
Definition canShoot (p : t) (now : float) : t * bool :=
  if fgt (Clock.getElapsedTime (shootClock p) now) (cooldown (weaponType p))
  then (with_shootClock (Clock.restart (shootClock p) now) p, true)
  else (p, false).

Definition shoot (p : t) : list Bullet.t :=
  let px := Vector2f.x (getPosition p) in
  let py := Vector2f.y (getPosition p) in
  match weaponType p with
  | WeaponType.Basic =>
      [Bullet.setPosition (Bullet.new "assets/images/bullet.png" Bullet.defaultDamage)
         px (py - 30)]
  | WeaponType.Double =>
      [Bullet.setPosition (Bullet.new "assets/images/weapons/bullet1.png" 15) (px - 20) (py - 20);
       Bullet.setPosition (Bullet.new "assets/images/weapons/bullet1.png" 15) (px + 20) (py - 20)]
  | WeaponType.Triple =>
      [Bullet.setPosition (Bullet.new "assets/images/weapons/bullet2.png" 20) px (py - 30);
       Bullet.setPosition (Bullet.new "assets/images/weapons/bullet2.png" 20) (px - 25) (py - 15);
       Bullet.setPosition (Bullet.new "assets/images/weapons/bullet2.png" 20) (px + 25) (py - 15)]
  | WeaponType.Laser => []
  end.

(** [shootLaser()]: [None] is the null pointer. *)
Definition shootLaser (p : t) : option Laser.t :=
  if WeaponType.eqb (weaponType p) WeaponType.Laser
  then Some (Laser.setPosition Laser.new (Vector2f.x (getPosition p))
                               (Vector2f.y (getPosition p) - 300))
  else None.

Definition takeDamage (p : t) (amount : Z) : t :=
  if Shield.isActive (shield p) then
    with_shield (Shield.takeDamage (shield p) (float_of_int amount)) p
  else
    let h := int_sub (health p) amount in
    with_health (if h <? 0 then 0 else h) p.

Definition heal (p : t) (amount : Z) : t :=
  let h := int_add (health p) amount in
  with_health (if h >? 100 then 100 else h) p.

Definition activateShield (p : t) : t := with_shield (Shield.activate (shield p)) p.

Definition addScore (p : t) (points : Z) : t := with_score (int_add (score p) points) p.

Definition upgradeWeapon (p : t) : t :=
  match weaponType p with
  | WeaponType.Basic => with_weaponType WeaponType.Double p
  | WeaponType.Double => with_weaponType WeaponType.Triple p
  | WeaponType.Triple => with_weaponType WeaponType.Laser p
  | WeaponType.Laser => addScore p 50
  end.

Definition getHealth (p : t) : Z := health p.
Definition getScore (p : t) : Z := score p.
Definition resetScore (p : t) : t := with_score 0 p.
Definition resetHealth (p : t) : t := with_health 100 p.
Definition getWeaponType (p : t) : WeaponType.t := weaponType p.
Definition resetWeapon (p : t) : t := with_weaponType WeaponType.Basic p.
Definition hasShield (p : t) : bool := Shield.isActive (shield p).
Definition getShieldHealth (p : t) : float := Shield.getHealth (shield p).
End Player.

(** ** Enemies *)

Module Enemy.
Record t : Set := mk {
  entity : Entity.t;
  type : EnemyType.t;
  health : float;
  speed : float;
  scoreValue : Z }.

(** [Enemy(texturePath, type, health, speed, scoreValue)] *)
Definition new (path : string) (ty : EnemyType.t) (h s : float) (sv : Z) : t :=
  mk (Entity.setRotation (Entity.setScale (Entity.new path) (1 # 2) (1 # 2)) 180)
     ty h s sv.

Definition with_entity (e : Entity.t) (en : t) : t :=
  mk e (type en) (health en) (speed en) (scoreValue en).

Definition update (en : t) (deltaTime : float) : t :=
  with_entity (Entity.move (entity en) 0 (speed en * deltaTime)) en.
Definition getPosition (en : t) : Vector2f.t := Entity.getPosition (entity en).
Definition setPosition (en : t) (px py : float) : t :=
  with_entity (Entity.setPosition (entity en) px py) en.
Definition isOffScreen (en : t) : bool := fgt (Vector2f.y (getPosition en)) 600.
Definition takeDamage (en : t) (amount : float) : t :=
  mk (entity en) (type en) (health en - amount) (speed en) (scoreValue en).
Definition isDestroyed (en : t) : bool := fle (health en) 0.
Definition getType (en : t) : EnemyType.t := type en.
Definition getScoreValue (en : t) : Z := scoreValue en.
End Enemy.

Definition BasicEnemy : Enemy.t :=
  Enemy.new "assets/images/enemies/enemy1.png" EnemyType.Basic 20 150 10.
Definition FastEnemy : Enemy.t :=
  Enemy.new "assets/images/enemies/enemy2.png" EnemyType.Fast 10 250 15.
Definition TankyEnemy : Enemy.t :=
  Enemy.new "assets/images/enemies/enemy3.png" EnemyType.Tanky 40 100 20.

Module BossState.
Inductive t : Set := Entering | MovingLeft | MovingRight.
End BossState.

Module BossEnemy.
Record t : Set := mk {
  enemy : Enemy.t;
  state : BossState.t;
  stateTime : float;
  shootCooldown : float }.

Definition new : t :=
  mk (Enemy.with_entity
        (Entity.setScale
           (Enemy.entity (Enemy.new "assets/images/enemies/boss.png" EnemyType.Boss 500 50 500))
           1 1)
        (Enemy.new "assets/images/enemies/boss.png" EnemyType.Boss 500 50 500))
     BossState.Entering 0 0.

Definition getPosition (b : t) : Vector2f.t := Enemy.getPosition (enemy b).
Definition setPosition (b : t) (px py : float) : t :=
  mk (Enemy.setPosition (enemy b) px py) (state b) (stateTime b) (shootCooldown b).
Definition move (b : t) (dx dy : float) : t :=
  mk (Enemy.with_entity (Entity.move (Enemy.entity (enemy b)) dx dy) (enemy b))
     (state b) (stateTime b) (shootCooldown b).
Definition with_state (s : BossState.t) (st : float) (b : t) : t :=
  mk (enemy b) s st (shootCooldown b).

Definition update (b : t) (deltaTime : float) : t :=
  let b1 := mk (enemy b) (state b) (stateTime b + deltaTime) (shootCooldown b - deltaTime) in
  let speed := Enemy.speed (enemy b1) in
  match state b1 with
  | BossState.Entering =>
      if flt (Vector2f.y (getPosition b1)) 100
      then move b1 0 (speed * deltaTime)
      else with_state BossState.MovingLeft 0 b1
  | BossState.MovingLeft =>
      let b2 := move b1 (- speed * (3 # 2) * deltaTime) 0 in
      if fgt (stateTime b2) 2 || flt (Vector2f.x (getPosition b2)) 100
      then with_state BossState.MovingRight 0 b2
      else b2
  | BossState.MovingRight =>
      let b2 := move b1 (speed * (3 # 2) * deltaTime) 0 in
      if fgt (stateTime b2) 2 || fgt (Vector2f.x (getPosition b2)) 700
      then with_state BossState.MovingLeft 0 b2
      else b2
  end.

(** [canShoot()]: the boss after the call and the value returned. *)
Definition canShoot (b : t) : t * bool :=
  if fle (shootCooldown b) 0
  then (mk (enemy b) (state b) (stateTime b) (1 # 2), true)
  else (b, false).

(** The body of the loop of [shoot] for one [i]. *)
Definition spreadBullet (b : t) (i : Z) : Bullet.t :=
  Bullet.setRotation
    (Bullet.setPosition (Bullet.new "assets/images/weapons/bullet2.png" Bullet.defaultDamage)
       (Vector2f.x (getPosition b) + float_of_int i * 30)
       (Vector2f.y (getPosition b) + 50))
    180.

Definition shoot (b : t) : list Bullet.t :=
  map (spreadBullet b) [-1; 0; 1].

Definition takeDamage (b : t) (amount : float) : t :=
  mk (Enemy.takeDamage (enemy b) amount) (state b) (stateTime b) (shootCooldown b).
Definition isDestroyed (b : t) : bool := Enemy.isDestroyed (enemy b).
Definition getScoreValue (b : t) : Z := Enemy.getScoreValue (enemy b).
End BossEnemy.

(** ** PowerUp *)

Module PowerUp.
Record t : Set := mk { entity : Entity.t; type : PowerUpType.t }.

Definition speed : float := 150.

Definition getTexturePath (ty : PowerUpType.t) : string :=
  match ty with
  | PowerUpType.Health => "assets/images/powerup.png"
  | PowerUpType.Shield => "assets/images/effects/shield.png"
  | PowerUpType.WeaponUpgrade => "assets/images/weapons/bullet2.png"
  | PowerUpType.ScoreBoost => "assets/images/powerup.png"
  end.

Definition new (ty : PowerUpType.t) : t :=
  mk (Entity.setScale (Entity.new (getTexturePath ty)) (1 # 2) (1 # 2)) ty.

Definition update (p : t) (deltaTime : float) : t :=
  mk (Entity.move (entity p) 0 (speed * deltaTime)) (type p).
Definition getPosition (p : t) : Vector2f.t := Entity.getPosition (entity p).
Definition setPosition (p : t) (px py : float) : t :=
  mk (Entity.setPosition (entity p) px py) (type p).
Definition isOffScreen (p : t) : bool := fgt (Vector2f.y (getPosition p)) 600.
Definition getType (p : t) : PowerUpType.t := type p.
End PowerUp.

(** ** Level *)

Module Level.
Record t : Set := mk {
  currentLevel : Z;
  enemiesDefeated : Z;
  bossSpawned : bool }.

Definition new : t := mk 1 0 false.

Definition getEnemiesForNextLevel (l : t) : Z :=
  int_add 20 (int_mul (int_sub (currentLevel l) 1) 5).

Definition update (l : t) (defeatedEnemies : Z) : t :=
  let l1 := mk (currentLevel l) (int_add (enemiesDefeated l) defeatedEnemies) (bossSpawned l) in
  if (enemiesDefeated l1 >=? getEnemiesForNextLevel l1) && negb (bossSpawned l1)
  then mk (int_add (currentLevel l1) 1) 0 true
  else l1.

Definition getCurrentLevel (l : t) : Z := currentLevel l.
Definition isBossLevel (l : t) : bool := bossSpawned l.
Definition resetBossFlag (l : t) : t := mk (currentLevel l) (enemiesDefeated l) false.

Definition getEnemySpawnInterval (l : t) : float :=
  fmax ((3 # 2) - float_of_int (int_sub (currentLevel l) 1) * (1 # 10)) (1 # 2).
Definition getPowerUpSpawnInterval (l : t) : float :=
  fmax (10 - float_of_int (int_sub (currentLevel l) 1) * (1 # 2)) 5.

Definition reset (l : t) : t := mk 1 0 false.
End Level.

(** [Entity::getBounds] *)
Definition getBounds `{Toolkit} (e : Entity.t) : FloatRect := getGlobalBounds e.

(** ** The environment of one iteration of the main loop *)

Module Key.
Inductive t : Set := Return | R | Other.
End Key.

Module Event.
Inductive t : Set := Closed | KeyPressed (code : Key.t) | Other.
End Event.

(** What one iteration of [Game::run] reads from outside the simulation:
    the frame time, the pending window events, the keyboard, the time
    read by the player's shoot clock, the values returned by the calls of
    [rand()] in [spawnEnemy] and [spawnPowerUp], and the draws of the
    random device, [rd n] for the explosion created when [n] explosions
    are alive. *)
Module Frame.
Record t : Type := mk {
  dt : float;
  events : list Event.t;
  keyboard : Keyboard.t;
  now : float;
  randEnemyType : Z;
  randEnemyX : Z;
  randPowerUpType : Z;
  randPowerUpX : Z;
  rd : nat -> nat -> ParticleSeed.t }.
End Frame.

(** ** Game *)

Module Game.
Record t : Type := mk {
  windowOpen : bool;
  gameState : GameState.t;
  deltaTime : float;
  player : Player.t;
  bullets : list Bullet.t;
  lasers : list Laser.t;
  enemies : list Enemy.t;
  powerups : list PowerUp.t;
  enemyBullets : list Bullet.t;
  boss : option BossEnemy.t;
  explosions : list Explosion.t;
  level : Level.t;
  enemySpawnTimer : float;
  powerupSpawnTimer : float;
  bossWarningVisible : bool;
  bossWarningTime : float }.
Definition with_windowOpen (v : bool) (g : t) : t :=
  mk v (gameState g) (deltaTime g) (player g) (bullets g) (lasers g) (enemies g)
     (powerups g) (enemyBullets g) (boss g) (explosions g) (level g) (enemySpawnTimer g)
     (powerupSpawnTimer g) (bossWarningVisible g) (bossWarningTime g).
Definition with_gameState (v : GameState.t) (g : t) : t :=
  mk (windowOpen g) v (deltaTime g) (player g) (bullets g) (lasers g) (enemies g)
     (powerups g) (enemyBullets g) (boss g) (explosions g) (level g) (enemySpawnTimer g)
     (powerupSpawnTimer g) (bossWarningVisible g) (bossWarningTime g).
Definition with_deltaTime (v : float) (g : t) : t :=
  mk (windowOpen g) (gameState g) v (player g) (bullets g) (lasers g) (enemies g)
     (powerups g) (enemyBullets g) (boss g) (explosions g) (level g) (enemySpawnTimer g)
     (powerupSpawnTimer g) (bossWarningVisible g) (bossWarningTime g).
Definition with_player (v : Player.t) (g : t) : t :=
  mk (windowOpen g) (gameState g) (deltaTime g) v (bullets g) (lasers g) (enemies g)
     (powerups g) (enemyBullets g) (boss g) (explosions g) (level g) (enemySpawnTimer g)
     (powerupSpawnTimer g) (bossWarningVisible g) (bossWarningTime g).
Definition with_bullets (v : list Bullet.t) (g : t) : t :=
  mk (windowOpen g) (gameState g) (deltaTime g) (player g) v (lasers g) (enemies g)
     (powerups g) (enemyBullets g) (boss g) (explosions g) (level g) (enemySpawnTimer g)
     (powerupSpawnTimer g) (bossWarningVisible g) (bossWarningTime g).
Definition with_lasers (v : list Laser.t) (g : t) : t :=
  mk (windowOpen g) (gameState g) (deltaTime g) (player g) (bullets g) v (enemies g)
     (powerups g) (enemyBullets g) (boss g) (explosions g) (level g) (enemySpawnTimer g)
     (powerupSpawnTimer g) (bossWarningVisible g) (bossWarningTime g).
Definition with_enemies (v : list Enemy.t) (g : t) : t :=
  mk (windowOpen g) (gameState g) (deltaTime g) (player g) (bullets g) (lasers g) v
     (powerups g) (enemyBullets g) (boss g) (explosions g) (level g) (enemySpawnTimer g)
     (powerupSpawnTimer g) (bossWarningVisible g) (bossWarningTime g).
Definition with_powerups (v : list PowerUp.t) (g : t) : t :=
  mk (windowOpen g) (gameState g) (deltaTime g) (player g) (bullets g) (lasers g)
     (enemies g) v (enemyBullets g) (boss g) (explosions g) (level g) (enemySpawnTimer g)
     (powerupSpawnTimer g) (bossWarningVisible g) (bossWarningTime g).
Definition with_enemyBullets (v : list Bullet.t) (g : t) : t :=
  mk (windowOpen g) (gameState g) (deltaTime g) (player g) (bullets g) (lasers g)
     (enemies g) (powerups g) v (boss g) (explosions g) (level g) (enemySpawnTimer g)
     (powerupSpawnTimer g) (bossWarningVisible g) (bossWarningTime g).
Definition with_boss (v : option BossEnemy.t) (g : t) : t :=
  mk (windowOpen g) (gameState g) (deltaTime g) (player g) (bullets g) (lasers g)
     (enemies g) (powerups g) (enemyBullets g) v (explosions g) (level g)
     (enemySpawnTimer g) (powerupSpawnTimer g) (bossWarningVisible g) (bossWarningTime g).
Definition with_explosions (v : list Explosion.t) (g : t) : t :=
  mk (windowOpen g) (gameState g) (deltaTime g) (player g) (bullets g) (lasers g)
     (enemies g) (powerups g) (enemyBullets g) (boss g) v (level g) (enemySpawnTimer g)
     (powerupSpawnTimer g) (bossWarningVisible g) (bossWarningTime g).
Definition with_level (v : Level.t) (g : t) : t :=
  mk (windowOpen g) (gameState g) (deltaTime g) (player g) (bullets g) (lasers g)
     (enemies g) (powerups g) (enemyBullets g) (boss g) (explosions g) v
     (enemySpawnTimer g) (powerupSpawnTimer g) (bossWarningVisible g) (bossWarningTime g).
Definition with_enemySpawnTimer (v : float) (g : t) : t :=
  mk (windowOpen g) (gameState g) (deltaTime g) (player g) (bullets g) (lasers g)
     (enemies g) (powerups g) (enemyBullets g) (boss g) (explosions g) (level g) v
     (powerupSpawnTimer g) (bossWarningVisible g) (bossWarningTime g).
Definition with_powerupSpawnTimer (v : float) (g : t) : t :=
  mk (windowOpen g) (gameState g) (deltaTime g) (player g) (bullets g) (lasers g)
     (enemies g) (powerups g) (enemyBullets g) (boss g) (explosions g) (level g)
     (enemySpawnTimer g) v (bossWarningVisible g) (bossWarningTime g).
Definition with_bossWarningVisible (v : bool) (g : t) : t :=
  mk (windowOpen g) (gameState g) (deltaTime g) (player g) (bullets g) (lasers g)
     (enemies g) (powerups g) (enemyBullets g) (boss g) (explosions g) (level g)
     (enemySpawnTimer g) (powerupSpawnTimer g) v (bossWarningTime g).
Definition with_bossWarningTime (v : float) (g : t) : t :=
  mk (windowOpen g) (gameState g) (deltaTime g) (player g) (bullets g) (lasers g)
     (enemies g) (powerups g) (enemyBullets g) (boss g) (explosions g) (level g)
     (enemySpawnTimer g) (powerupSpawnTimer g) (bossWarningVisible g) v.

Section WithToolkit.
Context `{Toolkit}.

(** [Game()], constructed at time [now]. *)
Definition new (now : float) : t :=
  mk true GameState.MainMenu 0 (Player.setPosition (Player.new now) 400 550)
     [] [] [] [] [] None [] Level.new 0 0 false 0.

(** [explosions.emplace_back(position)] *)
Definition emplaceExplosion (inp : Frame.t) (pos : Vector2f.t) (g : t) : t :=
  with_explosions
    (explosions g ++ [Explosion.new pos (Frame.rd inp (List.length (explosions g)))]) g.

(** *** startGame, startBossFight and the spawners *)

Definition startGame (g : t) : t :=
  let g := with_gameState GameState.Playing g in
  let g := with_player (Player.resetHealth (player g)) g in
  let g := with_player (Player.resetScore (player g)) g in
  let g := with_player (Player.resetWeapon (player g)) g in
  let g := with_player (Player.setPosition (player g) 400 550) g in
  let g := with_bullets [] g in
  let g := with_lasers [] g in
  let g := with_enemies [] g in
  let g := with_powerups [] g in
  let g := with_explosions [] g in
  let g := with_enemyBullets [] g in
  let g := with_boss None g in
  let g := with_level (Level.reset (level g)) g in
  let g := with_enemySpawnTimer 0 g in
  with_powerupSpawnTimer 0 g.

Definition startBossFight (g : t) : t :=
  with_bossWarningTime 0 (with_bossWarningVisible true (with_gameState GameState.BossFight g)).

(** The [switch] of [spawnEnemy]; [None] is the pointer left null when no
    case matches. *)
Definition enemyOfType (enemyType : Z) : option Enemy.t :=
  match enemyType with
  | 0 => Some BasicEnemy
  | 1 => Some FastEnemy
  | 2 => Some TankyEnemy
  | _ => None
  end.

(** [spawnEnemy()].  With a null [enemy] the source dereferences a null
    pointer; the model leaves the game unchanged there, which does not
    happen for a level of at least 1 and a non-negative [rand()]. *)
Definition spawnEnemy (inp : Frame.t) (g : t) : t :=
  let maxEnemyType := Z.min 3 (Level.getCurrentLevel (level g)) in
  let enemyType := Z.rem (Frame.randEnemyType inp) maxEnemyType in
  match enemyOfType enemyType with
  | Some enemy =>
      let px := float_of_int (int_add (Z.rem (Frame.randEnemyX inp) 750) 25) in
      with_enemies (enemies g ++ [Enemy.setPosition enemy px (-50)]) g
  | None => g
  end.

(** [spawnPowerUp()]; [rand() % 4] of a non-negative [rand()] always names
    an enumerator. *)
Definition spawnPowerUp (inp : Frame.t) (g : t) : t :=
  match PowerUpType.of_int (Z.rem (Frame.randPowerUpType inp) 4) with
  | Some type =>
      let px := float_of_int (int_add (Z.rem (Frame.randPowerUpX inp) 750) 25) in
      with_powerups (powerups g ++ [PowerUp.setPosition (PowerUp.new type) px (-50)]) g
  | None => g
  end.

(** *** The collision passes

    A loop that walks a vector with an iterator and erases under it is a
    recursion over the elements still to visit, [todo]; [pre] holds the
    elements visited and kept, in order, so that the vector is
    [pre ++ todo] and [erase(it)] leaves [pre ++ rest]. *)

(** What both [updateBullets] and [updateLasers] do to an enemy found
    destroyed: explosion, score, level, and the enemy erased. *)
Definition enemyDestroyed (inp : Frame.t) (e : Enemy.t) (pre rest : list Enemy.t) (g : t) : t :=
  let g := emplaceExplosion inp (Enemy.getPosition e) g in
  let g := with_player (Player.addScore (player g) (Enemy.getScoreValue e)) g in
  let g := with_level (Level.update (level g) 1) g in
  with_enemies (pre ++ rest) g.

(** The inner loop of [updateBullets] for the bullet [b]: the game after
    it and [bulletRemoved]. *)
Fixpoint bulletEnemies (inp : Frame.t) (b : Bullet.t) (pre todo : list Enemy.t) (g : t)
  : t * bool :=
  match todo with
  | [] => (g, false)
  | e :: rest =>
      if intersects (getBounds (Bullet.entity b)) (getBounds (Enemy.entity e)) then
        let e1 := Enemy.takeDamage e (Bullet.getDamage b) in
        if Enemy.isDestroyed e1
        then (enemyDestroyed inp e1 pre rest g, true)
        else (with_enemies (pre ++ e1 :: rest) g, true)
      else bulletEnemies inp b (pre ++ [e]) rest g
  end.

(** The outer loop of [updateBullets]. *)
Fixpoint bulletLoop (inp : Frame.t) (pre todo : list Bullet.t) (g : t) : t :=
  match todo with
  | [] => with_bullets pre g
  | b :: rest =>
      let b1 := Bullet.update b (deltaTime g) in
      let (g1, bulletRemoved) := bulletEnemies inp b1 [] (enemies g) g in
      if bulletRemoved then bulletLoop inp pre rest g1
      else
        match boss g1 with
        | Some bo =>
            if intersects (getBounds (Bullet.entity b1))
                          (getBounds (Enemy.entity (BossEnemy.enemy bo)))
            then bulletLoop inp pre rest
                   (with_boss (Some (BossEnemy.takeDamage bo (Bullet.getDamage b1))) g1)
            else if Bullet.isOffScreen b1 then bulletLoop inp pre rest g1
            else bulletLoop inp (pre ++ [b1]) rest g1
        | None =>
            if Bullet.isOffScreen b1 then bulletLoop inp pre rest g1
            else bulletLoop inp (pre ++ [b1]) rest g1
        end
  end.

Definition updateBullets (inp : Frame.t) (g : t) : t := bulletLoop inp [] (bullets g) g.

(** The inner loop of [updateLasers] for the laser [l]. *)
Fixpoint laserEnemies (inp : Frame.t) (l : Laser.t) (pre todo : list Enemy.t) (g : t) : t :=
  match todo with
  | [] => g
  | e :: rest =>
      if intersects (getBounds (Laser.entity l)) (getBounds (Enemy.entity e)) then
        let e1 := Enemy.takeDamage e (Laser.getDamage l) in
        if Enemy.isDestroyed e1
        then laserEnemies inp l pre rest (enemyDestroyed inp e1 pre rest g)
        else laserEnemies inp l (pre ++ [e1]) rest (with_enemies (pre ++ e1 :: rest) g)
      else laserEnemies inp l (pre ++ [e]) rest g
  end.

(** The outer loop of [updateLasers]. *)
Fixpoint laserLoop (inp : Frame.t) (pre todo : list Laser.t) (g : t) : t :=
  match todo with
  | [] => with_lasers pre g
  | l :: rest =>
      let l1 := Laser.update l (deltaTime g) in
      let g1 := laserEnemies inp l1 [] (enemies g) g in
      let g2 :=
        match boss g1 with
        | Some bo =>
            if intersects (getBounds (Laser.entity l1))
                          (getBounds (Enemy.entity (BossEnemy.enemy bo)))
            then with_boss (Some (BossEnemy.takeDamage bo (Laser.getDamage l1))) g1
            else g1
        | None => g1
        end in
      if negb (Laser.isActive l1) then laserLoop inp pre rest g2
      else laserLoop inp (pre ++ [l1]) rest g2
  end.

Definition updateLasers (inp : Frame.t) (g : t) : t := laserLoop inp [] (lasers g) g.

(** The death check that follows a hit of the player in [updateEnemies]
    and in the enemy bullet loop. *)
Definition checkPlayerDead (inp : Frame.t) (g : t) : t :=
  if Player.getHealth (player g) <=? 0
  then emplaceExplosion inp (Player.getPosition (player g))
         (with_gameState GameState.GameOver g)
  else g.

Fixpoint enemyLoop (inp : Frame.t) (pre todo : list Enemy.t) (g : t) : t :=
  match todo with
  | [] => with_enemies pre g
  | e :: rest =>
      let e1 := Enemy.update e (deltaTime g) in
      if intersects (getBounds (Enemy.entity e1)) (getBounds (Player.entity (player g))) then
        let g := with_player (Player.takeDamage (player g) 25) g in
        let g := emplaceExplosion inp (Enemy.getPosition e1) g in
        enemyLoop inp pre rest (checkPlayerDead inp g)
      else if Enemy.isOffScreen e1 then enemyLoop inp pre rest g
      else enemyLoop inp (pre ++ [e1]) rest g
  end.

Definition updateEnemies (inp : Frame.t) (g : t) : t := enemyLoop inp [] (enemies g) g.

(** The [switch] of [updatePowerUps]. *)
Definition applyPowerUp (ty : PowerUpType.t) (p : Player.t) : Player.t :=
  match ty with
  | PowerUpType.Health => Player.heal p 25
  | PowerUpType.Shield => Player.activateShield p
  | PowerUpType.WeaponUpgrade => Player.upgradeWeapon p
  | PowerUpType.ScoreBoost => Player.addScore p 50
  end.

Fixpoint powerUpLoop (pre todo : list PowerUp.t) (g : t) : t :=
  match todo with
  | [] => with_powerups pre g
  | p :: rest =>
      let p1 := PowerUp.update p (deltaTime g) in
      if intersects (getBounds (PowerUp.entity p1)) (getBounds (Player.entity (player g)))
      then powerUpLoop pre rest (with_player (applyPowerUp (PowerUp.getType p1) (player g)) g)
      else if PowerUp.isOffScreen p1 then powerUpLoop pre rest g
      else powerUpLoop (pre ++ [p1]) rest g
  end.

Definition updatePowerUps (g : t) : t := powerUpLoop [] (powerups g) g.

Fixpoint explosionLoop (todo : list Explosion.t) (deltaTime : float) : list Explosion.t :=
  match todo with
  | [] => []
  | e :: rest =>
      let (e1, alive) := Explosion.update e deltaTime in
      if alive then e1 :: explosionLoop rest deltaTime
      else explosionLoop rest deltaTime
  end.

Definition updateExplosions (g : t) : t :=
  with_explosions (explosionLoop (explosions g) (deltaTime g)) g.

(** The enemy bullet loop of [updateBossFight]. *)
Fixpoint enemyBulletLoop (inp : Frame.t) (pre todo : list Bullet.t) (g : t) : t :=
  match todo with
  | [] => with_enemyBullets pre g
  | b :: rest =>
      let b1 := Bullet.move b 0 (300 * deltaTime g) in
      if intersects (getBounds (Bullet.entity b1)) (getBounds (Player.entity (player g))) then
        let g := with_player (Player.takeDamage (player g) 10) g in
        enemyBulletLoop inp pre rest (checkPlayerDead inp g)
      else if fgt (Vector2f.y (Bullet.getPosition b1)) 600 then enemyBulletLoop inp pre rest g
      else enemyBulletLoop inp (pre ++ [b1]) rest g
  end.

Definition updateEnemyBullets (inp : Frame.t) (g : t) : t :=
  enemyBulletLoop inp [] (enemyBullets g) g.

(** *** The per-frame updates *)

(** The shooting block shared by [updatePlaying] and [updateBossFight];
    [canShoot] is called only when the space key is held. *)
Definition shooting (inp : Frame.t) (g : t) : t :=
  if Keyboard.Space (Frame.keyboard inp) then
    let (p1, can) := Player.canShoot (player g) (Frame.now inp) in
    let g := with_player p1 g in
    if can then
      if WeaponType.eqb (Player.getWeaponType (player g)) WeaponType.Laser then
        match Player.shootLaser (player g) with
        | Some laser => with_lasers (lasers g ++ [laser]) g
        | None => g
        end
      else with_bullets (bullets g ++ Player.shoot (player g)) g
    else g
  else g.

Definition spawning (inp : Frame.t) (g : t) : t :=
  let g := with_enemySpawnTimer (enemySpawnTimer g + deltaTime g) g in
  let g := if fge (enemySpawnTimer g) (Level.getEnemySpawnInterval (level g))
           then with_enemySpawnTimer 0 (spawnEnemy inp g) else g in
  let g := with_powerupSpawnTimer (powerupSpawnTimer g + deltaTime g) g in
  if fge (powerupSpawnTimer g) (Level.getPowerUpSpawnInterval (level g))
  then with_powerupSpawnTimer 0 (spawnPowerUp inp g) else g.

Definition updatePlaying (inp : Frame.t) (g : t) : t :=
  let g := with_player (Player.update (Frame.keyboard inp) (player g) (deltaTime g)) g in
  let g := shooting inp g in
  let g := spawning inp g in
  let g := updateBullets inp g in
  let g := updateLasers inp g in
  let g := updateEnemies inp g in
  let g := updatePowerUps g in
  let g := updateExplosions g in
  if Level.isBossLevel (level g) then startBossFight g else g.

(** The block of [updateBossFight] that creates, moves and fires the boss
    and detects its destruction. *)
Definition updateBoss (inp : Frame.t) (g : t) : t :=
  match boss g with
  | None => with_boss (Some (BossEnemy.setPosition BossEnemy.new 400 (-50))) g
  | Some bo =>
      let bo := BossEnemy.update bo (deltaTime g) in
      let (bo, can) := BossEnemy.canShoot bo in
      let g := with_boss (Some bo) g in
      let g := if can then with_enemyBullets (enemyBullets g ++ BossEnemy.shoot bo) g else g in
      if BossEnemy.isDestroyed bo then
        let g := emplaceExplosion inp (BossEnemy.getPosition bo) g in
        let g := with_player (Player.addScore (player g) (BossEnemy.getScoreValue bo)) g in
        let g := with_boss None g in
        let g := with_level (Level.resetBossFlag (level g)) g in
        if Level.getCurrentLevel (level g) >=? 5
        then with_gameState GameState.Victory g
        else with_gameState GameState.Playing g
      else g
  end.

Definition updateBossWarning (g : t) : t :=
  if bossWarningVisible g then
    let g := with_bossWarningTime (bossWarningTime g + deltaTime g) g in
    if fge (bossWarningTime g) 3 then with_bossWarningVisible false g else g
  else g.

Definition updateBossFight (inp : Frame.t) (g : t) : t :=
  let g := with_player (Player.update (Frame.keyboard inp) (player g) (deltaTime g)) g in
  let g := shooting inp g in
  let g := updateBoss inp g in
  let g := updateBullets inp g in
  let g := updateEnemyBullets inp g in
  let g := updateLasers inp g in
  let g := updateExplosions g in
  updateBossWarning g.

Definition update (inp : Frame.t) (g : t) : t :=
  match gameState g with
  | GameState.MainMenu => g
  | GameState.Playing => updatePlaying inp g
  | GameState.BossFight => updateBossFight inp g
  | GameState.GameOver | GameState.Victory => updateExplosions g
  end.

(** The body of the event loop of [handleEvents] for one event. *)
Definition handleEvent (g : t) (event : Event.t) : t :=
  match event with
  | Event.Closed => with_windowOpen false g
  | Event.KeyPressed code =>
      match gameState g, code with
      | GameState.MainMenu, Key.Return => startGame g
      | GameState.GameOver, Key.R | GameState.Victory, Key.R => startGame g
      | _, _ => g
      end
  | Event.Other => g
  end.

Definition handleEvents (inp : Frame.t) (g : t) : t :=
  fold_left handleEvent (Frame.events inp) g.

(** One iteration of the loop of [run]. *)
Definition iteration (g : t) (inp : Frame.t) : t :=
  update inp (handleEvents inp (with_deltaTime (Frame.dt inp) g)).


End WithToolkit.
End Game.

(** ** A concrete toolkit for the scenarios

    Every texture is 64 by 64 pixels.  The sprite of an entity has its
    origin at the centre of its texture, so its bounding rectangle is
    centred at its position, and a rotation by 0 or 180 degrees (the only
    ones the program sets) leaves that rectangle in place.  The
    intersection test is the one of [sf::Rect] for rectangles of
    non-negative width and height.  The two polynomials standing for the
    cosine and the sine are exact at angle 0, the only angle the scenarios
    draw. *)

Module Scenario.
Record Rect : Set := mkRect { left : float; top : float; width : float; height : float }.

Definition textureSize : float := 64.

Definition globalBounds (e : Entity.t) : Rect :=
  let w := (textureSize * Vector2f.x (Entity.scale e))%Q in
  let h := (textureSize * Vector2f.y (Entity.scale e))%Q in
  mkRect (Vector2f.x (Entity.position e) - w / 2) (Vector2f.y (Entity.position e) - h / 2) w h.

Definition rectIntersects (a b : Rect) : bool :=
  let interLeft := fmax (left a) (left b) in
  let interTop := fmax (top a) (top b) in
  let interRight := if flt (left a + width a) (left b + width b)
                    then (left a + width a)%Q else (left b + width b)%Q in
  let interBottom := if flt (top a + height a) (top b + height b)
                     then (top a + height a)%Q else (top b + height b)%Q in
  flt interLeft interRight && flt interTop interBottom.

#[global] Instance toolkit : Toolkit := {
  FloatRect := Rect;
  getGlobalBounds := globalBounds;
  intersects := rectIntersects;
  cosf := fun a => (1 - a * a / 2)%Q;
  sinf := fun a => a }.

(** No draw of the random device matters in the scenarios. *)
Definition seed : nat -> nat -> ParticleSeed.t :=
  fun _ _ => ParticleSeed.mk 0 64 1.



(** A game in play with a frame time of 1/64 s and two tanky enemies whose
    sprites overlap, at (400, 300) and (410, 300); a bullet of damage 15
    that the next update takes to (400, 300); a laser placed over both
    enemies. *)
Definition twoEnemies : Game.t :=
  Game.with_deltaTime (1 # 64)
    (Game.with_enemies
       [Enemy.setPosition TankyEnemy 400 300; Enemy.setPosition TankyEnemy 410 300]
       (Game.startGame (Game.new 0))).

Definition oneBullet : Bullet.t :=
  Bullet.setPosition (Bullet.new "assets/images/weapons/bullet1.png" 15) 400 (2475 # 8).

Definition oneLaser : Laser.t := Laser.setPosition Laser.new 400 300.

(** A session at about ten frames a second (3/32 s a frame) in which the
    player touches no key after starting the game.  Every enemy spawns at
    x = 25, far from the player at x = 400.  During the first 111 frames
    the power-up to spawn is a Shield at x = 400, straight above the
    player; afterwards it is a Health at x = 25. *)
Definition frameTime : float := 3 # 32.

Definition quietFrame : Frame.t :=
  Frame.mk frameTime [] Keyboard.none 0 0 0 0 0 seed.






(** The first two frames of a boss fight entered from a fresh game. *)
Definition bossFightStart : Game.t :=
  Game.with_gameState GameState.BossFight (Game.startGame (Game.new 0)).

(** A player with its shield up at 40 under a Shield power-up that the
    next frame brings onto it. *)
Definition wornShield : Game.t :=
  Game.with_deltaTime (1 # 32)
    (Game.with_powerups
       [PowerUp.setPosition (PowerUp.new PowerUpType.Shield) 400 540]
       (Game.with_player
          (Player.with_shield
             (Shield.mk (Shield.entity Shield.new) 40 true)
             (Game.player (Game.startGame (Game.new 0))))
          (Game.startGame (Game.new 0)))).

End Scenario.

(** * The vocabulary of the properties

    The predicates the theorems below are stated with. *)

Section Vocabulary.
Context `{Toolkit}.

(** The overlap tests of the two passes. *)
Definition bulletHits (b : Bullet.t) (e : Enemy.t) : bool :=
  intersects (getBounds (Bullet.entity b)) (getBounds (Enemy.entity e)).





(** The shield of the player is full and up. *)
Definition shieldFull (p : Player.t) : Prop :=
  Player.getShieldHealth p = 100%Q /\ Player.hasShield p = true.















Definition score (g : Game.t) : Z := Player.getScore (Game.player g).




End Vocabulary.

(** * Properties *)

(** ** Arithmetic *)

Lemma wrap_in_int (z : Z) : in_int z -> wrap z = z.
Proof.
  unfold in_int, INT_MIN, INT_MAX, wrap. intros Hz.
  rewrite Z.mod_small; lia.
Qed.




Lemma flt_false_iff (a b : float) : flt a b = false <-> (b <= a)%Q.
Proof.
  unfold flt. rewrite negb_false_iff, Qle_bool_iff. reflexivity.
Qed.

(** ** Player.takeDamage (C1) *)



(** ** Level.update (C5) *)

Lemma Level_update_flag_set (l : Level.t) (n : Z) :
  Level.bossSpawned l = true ->
  Level.update l n
  = Level.mk (Level.currentLevel l) (int_add (Level.enemiesDefeated l) n) true.
Proof.
  intros Hb. unfold Level.update. simpl. rewrite Hb.
  rewrite andb_false_r. reflexivity.
Qed.

Lemma Level_updates_flag_set (ns : list Z) : forall l : Level.t,
  Level.bossSpawned l = true ->
  Level.currentLevel (fold_left Level.update ns l) = Level.currentLevel l
  /\ Level.bossSpawned (fold_left Level.update ns l) = true.
Proof.
  induction ns as [| n ns IH]; intros l Hb; simpl.
  - split; [reflexivity | exact Hb].
  - rewrite (Level_update_flag_set l n Hb).
    destruct (IH (Level.mk (Level.currentLevel l)
                           (int_add (Level.enemiesDefeated l) n) true) eq_refl)
      as [IH1 IH2].
    split; assumption.
Qed.

(** C5.  For a level [L >= 1] whose threshold [20 + 5 * (L - 1)] fits an
    [int], and a count [n] whose sum with the counter fits an [int]:
    [getEnemiesForNextLevel] is that threshold; when [update(n)] brings
    the counter to the threshold or above with the flag unset, the level
    becomes [L + 1], the counter 0 and the flag set; below the threshold
    only the counter moves; with the flag already set the level and the
    flag stay as they are, for one update and for any sequence of
    updates. *)
Theorem Level_update_triggers_once (l : Level.t) (n : Z) :
  1 <= Level.currentLevel l ->
  20 + 5 * (Level.currentLevel l - 1) <= INT_MAX ->
  in_int (Level.enemiesDefeated l + n) ->
  Level.getEnemiesForNextLevel l = 20 + 5 * (Level.currentLevel l - 1)
  /\ (Level.bossSpawned l = false ->
      20 + 5 * (Level.currentLevel l - 1) <= Level.enemiesDefeated l + n ->
      Level.update l n = Level.mk (Level.currentLevel l + 1) 0 true)
  /\ (Level.bossSpawned l = false ->
      Level.enemiesDefeated l + n < 20 + 5 * (Level.currentLevel l - 1) ->
      Level.update l n
      = Level.mk (Level.currentLevel l) (Level.enemiesDefeated l + n) false)
  /\ (Level.bossSpawned l = true ->
      Level.update l n
      = Level.mk (Level.currentLevel l) (Level.enemiesDefeated l + n) true)
  /\ (forall ns : list Z,
      Level.bossSpawned l = true ->
      Level.currentLevel (fold_left Level.update ns l) = Level.currentLevel l
      /\ Level.bossSpawned (fold_left Level.update ns l) = true).
Proof.
  intros HL Hthr Hc.
  assert (Hthreshold : Level.getEnemiesForNextLevel l = 20 + 5 * (Level.currentLevel l - 1)).
  { unfold Level.getEnemiesForNextLevel, int_add, int_mul, int_sub.
    unfold INT_MAX in Hthr.
    rewrite (wrap_in_int (Level.currentLevel l - 1))
      by (unfold in_int, INT_MIN, INT_MAX; lia).
    rewrite (wrap_in_int ((Level.currentLevel l - 1) * 5))
      by (unfold in_int, INT_MIN, INT_MAX; lia).
    rewrite wrap_in_int by (unfold in_int, INT_MIN, INT_MAX; lia).
    lia. }
  assert (Hthreshold' : forall c b,
             Level.getEnemiesForNextLevel (Level.mk (Level.currentLevel l) c b)
             = 20 + 5 * (Level.currentLevel l - 1)).
  { intros c b. exact Hthreshold. }
  split; [exact Hthreshold |].
  split; [| split; [| split]].
  - intros Hb Hge. unfold Level.update. cbv zeta.
    rewrite Hthreshold'. cbn [Level.enemiesDefeated Level.bossSpawned Level.currentLevel].
    rewrite Hb. unfold int_add at 1. rewrite (wrap_in_int _ Hc).
    replace (Level.enemiesDefeated l + n >=? 20 + 5 * (Level.currentLevel l - 1)) with true
      by (symmetry; apply Z.geb_le; lia).
    cbn [andb negb]. unfold int_add. rewrite wrap_in_int; [reflexivity |].
    unfold in_int, INT_MIN, INT_MAX in *. lia.
  - intros Hb Hlt. unfold Level.update. cbv zeta.
    rewrite Hthreshold'. cbn [Level.enemiesDefeated Level.bossSpawned Level.currentLevel].
    rewrite Hb. unfold int_add. rewrite (wrap_in_int _ Hc).
    replace (Level.enemiesDefeated l + n >=? 20 + 5 * (Level.currentLevel l - 1)) with false
      by (symmetry; rewrite Z.geb_leb; apply Z.leb_gt; lia).
    reflexivity.
  - intros Hb. rewrite (Level_update_flag_set l n Hb). unfold int_add.
    rewrite (wrap_in_int _ Hc). reflexivity.
  - intros ns Hb. exact (Level_updates_flag_set ns l Hb).
Qed.

(** C5 at level 2 (threshold 25): with 24 enemies counted, one more
    raises the level to 3, clears the counter and sets the flag. *)
Lemma Level_update_triggers_once_witness :
  Level.update (Level.mk 2 24 false) 1 = Level.mk 3 0 true.
Proof.
  refine (proj1 (proj2 (Level_update_triggers_once (Level.mk 2 24 false) 1 _ _ _)) eq_refl _);
    unfold in_int, INT_MIN, INT_MAX; simpl; lia.
Defined.

(** ** Player.upgradeWeapon (C6) *)

(** C6.  [upgradeWeapon] takes Basic to Double, Double to Triple, Triple
    to Laser and leaves Laser at Laser; the tier never goes down; below
    Laser it goes up by exactly one step and the score is untouched; at
    Laser the score grows by exactly 50 (when [score + 50] fits an
    [int]). *)
Theorem Player_upgradeWeapon_steps (p : Player.t) :
  Player.weaponType (Player.upgradeWeapon p)
  = match Player.weaponType p with
    | WeaponType.Basic => WeaponType.Double
    | WeaponType.Double => WeaponType.Triple
    | WeaponType.Triple => WeaponType.Laser
    | WeaponType.Laser => WeaponType.Laser
    end
  /\ WeaponType.rank (Player.weaponType p)
     <= WeaponType.rank (Player.weaponType (Player.upgradeWeapon p))
  /\ (Player.weaponType p <> WeaponType.Laser ->
      WeaponType.rank (Player.weaponType (Player.upgradeWeapon p))
      = WeaponType.rank (Player.weaponType p) + 1
      /\ Player.score (Player.upgradeWeapon p) = Player.score p)
  /\ (Player.weaponType p = WeaponType.Laser ->
      in_int (Player.score p + 50) ->
      Player.score (Player.upgradeWeapon p) = Player.score p + 50).
Proof.
  unfold Player.upgradeWeapon.
  destruct (Player.weaponType p) eqn:Hw; simpl; rewrite ?Hw; simpl;
    (split; [reflexivity | split; [lia | split]]);
    try (intros _; split; [reflexivity | reflexivity]);
    try (intros Hd; discriminate Hd);
    try (intros Hn; exfalso; apply Hn; reflexivity).
  intros _ Hr. unfold int_add. apply wrap_in_int. exact Hr.
Qed.

(** C6 at a Laser player of score 120: the tier stays Laser and the score
    becomes 170. *)
Lemma Player_upgradeWeapon_steps_witness :
  Player.score
    (Player.upgradeWeapon
       (Player.with_score 120 (Player.with_weaponType WeaponType.Laser (Player.new 0))))
  = 170.
Proof.
  refine (proj2 (proj2 (proj2 (Player_upgradeWeapon_steps
            (Player.with_score 120
               (Player.with_weaponType WeaponType.Laser (Player.new 0))))))
            eq_refl _).
  unfold in_int, INT_MIN, INT_MAX; simpl; lia.
Defined.

(** ** Player.update and the window bounds (C8) *)


Lemma fgt_false_iff (a b : float) : fgt a b = false <-> (a <= b)%Q.
Proof. unfold fgt. apply flt_false_iff. Qed.







(** ** Game.startGame (C7) *)

(** C7.  Whatever the game was, and so from any GameOver or Victory state,
    [startGame] leaves the player's health at 100, its score at 0, its
    weapon at Basic and its position at (400, 550); the bullets, lasers,
    enemies, power-ups, explosions and enemy bullets empty and the boss
    null; the level at 1 with no enemy counted and no boss flag; both
    spawn timers at 0; and the state Playing.  In a GameOver or Victory
    state the R key runs exactly [startGame]. *)
Theorem Game_startGame_resets (g : Game.t) :
  Player.getHealth (Game.player (Game.startGame g)) = 100
  /\ Player.getScore (Game.player (Game.startGame g)) = 0
  /\ Player.getWeaponType (Game.player (Game.startGame g)) = WeaponType.Basic
  /\ Player.getPosition (Game.player (Game.startGame g)) = Vector2f.mk 400 550
  /\ Game.bullets (Game.startGame g) = []
  /\ Game.lasers (Game.startGame g) = []
  /\ Game.enemies (Game.startGame g) = []
  /\ Game.powerups (Game.startGame g) = []
  /\ Game.explosions (Game.startGame g) = []
  /\ Game.enemyBullets (Game.startGame g) = []
  /\ Game.boss (Game.startGame g) = None
  /\ Game.level (Game.startGame g) = Level.mk 1 0 false
  /\ Game.enemySpawnTimer (Game.startGame g) = 0%Q
  /\ Game.powerupSpawnTimer (Game.startGame g) = 0%Q
  /\ Game.gameState (Game.startGame g) = GameState.Playing
  /\ (Game.gameState g = GameState.GameOver \/ Game.gameState g = GameState.Victory ->
      Game.handleEvent g (Event.KeyPressed Key.R) = Game.startGame g).
Proof.
  repeat (split; [reflexivity |]).
  intros [Hs | Hs]; unfold Game.handleEvent; rewrite Hs; reflexivity.
Qed.

(** ** The first shot of the boss (C10) *)





(** C10 on the first frames of a boss fight, of 3/32 s each: the first
    creates the boss and fires nothing, the second fires the spread of
    three. *)
Example BossEnemy_fires_at_once_example :
  List.length (Game.enemyBullets
                 (Game.iteration Scenario.bossFightStart Scenario.quietFrame)) = 0%nat
  /\ List.length (Game.enemyBullets
                    (Game.iteration
                       (Game.iteration Scenario.bossFightStart Scenario.quietFrame)
                       Scenario.quietFrame)) = 3%nat.
Proof. split; vm_compute; reflexivity. Qed.

(** ** The collision passes of bullets and lasers (C3) *)

Section Collisions.
Context `{Toolkit}.

Lemma deltaTime_emplaceExplosion inp pos g :
  Game.deltaTime (Game.emplaceExplosion inp pos g) = Game.deltaTime g.
Proof. reflexivity. Qed.

Lemma deltaTime_enemyDestroyed inp e pre rest g :
  Game.deltaTime (Game.enemyDestroyed inp e pre rest g) = Game.deltaTime g.
Proof. reflexivity. Qed.

Lemma bulletEnemies_miss inp b : forall todo pre g,
  Forall (fun e => bulletHits b e = false) todo ->
  Game.bulletEnemies inp b pre todo g = (g, false).
Proof.
  induction todo as [| e rest IH]; intros pre g Hall; simpl.
  - reflexivity.
  - inversion Hall as [| ? ? He Hrest]; subst.
    unfold bulletHits in He. rewrite He. apply IH. exact Hrest.
Qed.

Lemma bulletEnemies_first inp b e after : forall before pre g,
  Forall (fun e' => bulletHits b e' = false) before ->
  bulletHits b e = true ->
  Game.bulletEnemies inp b pre (before ++ e :: after) g
  = (if Enemy.isDestroyed (Enemy.takeDamage e (Bullet.getDamage b))
     then Game.enemyDestroyed inp (Enemy.takeDamage e (Bullet.getDamage b))
            (pre ++ before) after g
     else Game.with_enemies
            (pre ++ before ++ Enemy.takeDamage e (Bullet.getDamage b) :: after) g,
     true).
Proof.
  induction before as [| e0 before IH]; intros pre g Hall He; simpl.
  - unfold bulletHits in He. rewrite He. rewrite app_nil_r.
    destruct (Enemy.isDestroyed _); reflexivity.
  - inversion Hall as [| ? ? He0 Hrest]; subst.
    unfold bulletHits in He0. rewrite He0.
    rewrite (IH (pre ++ [e0]) g Hrest He).
    rewrite <- !app_assoc. reflexivity.
Qed.

(** A list either has a first element passing a test, or none. *)
Lemma first_match {A : Type} (f : A -> bool) (l : list A) :
  Forall (fun a => f a = false) l
  \/ exists before a after,
       l = before ++ a :: after /\ Forall (fun a' => f a' = false) before /\ f a = true.
Proof.
  induction l as [| a l IH].
  - left. constructor.
  - destruct (f a) eqn:Ha.
    + right. exists [], a, l. split; [reflexivity | split; [constructor | exact Ha]].
    + destruct IH as [Hnone | (before & a' & after & Hl & Hb & Ha')].
      * left. constructor; assumption.
      * right. exists (a :: before), a', after.
        split; [rewrite Hl; reflexivity | split; [constructor; assumption | exact Ha']].
Qed.

Lemma deltaTime_bulletEnemies inp b todo pre g :
  Game.deltaTime (fst (Game.bulletEnemies inp b pre todo g)) = Game.deltaTime g.
Proof.
  destruct (first_match (bulletHits b) todo) as [Hnone | (before & e & after & Hl & Hb & He)].
  - rewrite (bulletEnemies_miss inp b todo pre g Hnone). reflexivity.
  - rewrite Hl, (bulletEnemies_first inp b e after before pre g Hb He).
    destruct (Enemy.isDestroyed _); reflexivity.
Qed.











End Collisions.

(** C3 on two overlapping enemies of health 40.  A bullet of damage 15
    that overlaps both damages the first only, which survives, and is
    gone after the pass; a laser over both damages both and stays. *)
Example bullet_hits_first_example :
  Game.bullets (Game.updateBullets (Frame.mk (1 # 64) [] Keyboard.none 0 0 0 0 0 Scenario.seed)
                  (Game.with_bullets [Scenario.oneBullet] Scenario.twoEnemies)) = []
  /\ map (fun e => Qred (Enemy.health e))
       (Game.enemies
          (Game.updateBullets (Frame.mk (1 # 64) [] Keyboard.none 0 0 0 0 0 Scenario.seed)
             (Game.with_bullets [Scenario.oneBullet] Scenario.twoEnemies)))
     = [25; 40]%Q
  /\ map (fun e => Qred (Enemy.health e))
       (Game.enemies
          (Game.updateLasers (Frame.mk (1 # 64) [] Keyboard.none 0 0 0 0 0 Scenario.seed)
             (Game.with_lasers [Scenario.oneLaser] Scenario.twoEnemies)))
     = [39; 39]%Q
  /\ map (fun l => Qred (Laser.lifetime l))
       (Game.lasers
          (Game.updateLasers (Frame.mk (1 # 64) [] Keyboard.none 0 0 0 0 0 Scenario.seed)
             (Game.with_lasers [Scenario.oneLaser] Scenario.twoEnemies)))
     = [31 # 64]%Q.
Proof. repeat split; vm_compute; reflexivity. Qed.

(** ** Shield.activate and the Shield power-up (C9) *)

Section ShieldPowerUp.
Context `{Toolkit}.

Lemma applyPowerUp_entity ty p :
  Player.entity (Game.applyPowerUp ty p) = Player.entity p.
Proof.
  destruct ty; try reflexivity.
  unfold Game.applyPowerUp, Player.upgradeWeapon.
  destruct (Player.weaponType p); reflexivity.
Qed.

Lemma applyPowerUp_shieldFull ty p :
  shieldFull p \/ ty = PowerUpType.Shield -> shieldFull (Game.applyPowerUp ty p).
Proof.
  intros [Hfull | ->]; [| split; reflexivity].
  destruct ty; try exact Hfull; try (split; reflexivity).
  unfold Game.applyPowerUp, Player.upgradeWeapon.
  destruct (Player.weaponType p); exact Hfull.
Qed.

Lemma powerUpLoop_shieldFull : forall todo pre g,
  shieldFull (Game.player g)
  \/ (exists pu, In pu todo
                 /\ PowerUp.getType pu = PowerUpType.Shield
                 /\ intersects (getBounds (PowerUp.entity (PowerUp.update pu (Game.deltaTime g))))
                               (getBounds (Player.entity (Game.player g))) = true) ->
  shieldFull (Game.player (Game.powerUpLoop pre todo g)).
Proof.
  induction todo as [| p rest IH]; intros pre g Hcase.
  - destruct Hcase as [Hfull | (pu & [] & _)]. exact Hfull.
  - cbn [Game.powerUpLoop]. cbv zeta.
    set (p1 := PowerUp.update p (Game.deltaTime g)).
    destruct (intersects (getBounds (PowerUp.entity p1))
                         (getBounds (Player.entity (Game.player g)))) eqn:Hint.
    + apply IH.
      destruct Hcase as [Hfull | (pu & [<- | Hin] & Hty & Hpu)].
      * left. apply applyPowerUp_shieldFull. left. exact Hfull.
      * left. apply applyPowerUp_shieldFull. right. exact Hty.
      * right. exists pu. split; [exact Hin | split; [exact Hty |]].
        cbn [Game.player Game.deltaTime Game.with_player].
        rewrite applyPowerUp_entity. exact Hpu.
    + assert (Hrest : shieldFull (Game.player g)
                      \/ (exists pu, In pu rest
                            /\ PowerUp.getType pu = PowerUpType.Shield
                            /\ intersects
                                 (getBounds (PowerUp.entity (PowerUp.update pu (Game.deltaTime g))))
                                 (getBounds (Player.entity (Game.player g))) = true)).
      { destruct Hcase as [Hfull | (pu & [<- | Hin] & Hty & Hpu)].
        - left. exact Hfull.
        - fold p1 in Hpu. rewrite Hpu in Hint. discriminate Hint.
        - right. exists pu. split; [exact Hin | split; [exact Hty | exact Hpu]]. }
      destruct (PowerUp.isOffScreen p1); apply IH; exact Hrest.
Qed.

(** C9.  [Shield::activate] sets the health to 100 and the shield active
    whatever they were; so does [Player::activateShield]; and whenever a
    Shield power-up of the collection, moved by the frame, overlaps the
    player, [updatePowerUps] leaves the player's shield at 100 and
    active, whatever its health and whether it was active before. *)
Theorem activateShield_refills :
  (forall s : Shield.t,
      Shield.getHealth (Shield.activate s) = 100%Q
      /\ Shield.isActive (Shield.activate s) = true)
  /\ (forall p : Player.t,
      Player.getShieldHealth (Player.activateShield p) = 100%Q
      /\ Player.hasShield (Player.activateShield p) = true
      /\ Player.getHealth (Player.activateShield p) = Player.getHealth p)
  /\ (forall (g : Game.t) (pu : PowerUp.t),
      In pu (Game.powerups g) ->
      PowerUp.getType pu = PowerUpType.Shield ->
      intersects (getBounds (PowerUp.entity (PowerUp.update pu (Game.deltaTime g))))
                 (getBounds (Player.entity (Game.player g))) = true ->
      Player.getShieldHealth (Game.player (Game.updatePowerUps g)) = 100%Q
      /\ Player.hasShield (Game.player (Game.updatePowerUps g)) = true).
Proof.
  split; [| split].
  - intros s. split; reflexivity.
  - intros p. repeat split.
  - intros g pu Hin Hty Hpu. unfold Game.updatePowerUps.
    apply powerUpLoop_shieldFull. right. exists pu.
    split; [exact Hin | split; [exact Hty | exact Hpu]].
Qed.

End ShieldPowerUp.

(** C9 on a shield worn down to 40: picking a Shield power-up up brings
    it back to 100. *)
Example activateShield_refills_example :
  Player.getShieldHealth (Game.player Scenario.wornShield) = 40%Q
  /\ Player.hasShield (Game.player Scenario.wornShield) = true
  /\ Player.getShieldHealth (Game.player (Game.updatePowerUps Scenario.wornShield)) = 100%Q
  /\ Player.hasShield (Game.player (Game.updatePowerUps Scenario.wornShield)) = true
  /\ Game.powerups (Game.updatePowerUps Scenario.wornShield) = [].
Proof. repeat split; vm_compute; reflexivity. Qed.

(** ** What each pass advances, culls and leaves alone (C4) *)

Section Passes.
Context `{Toolkit}.








































End Passes.

(** ** Health, shield and score over a session (C2) *)










Section Session.
Context `{Toolkit}.




Variable M : Z.
Hypothesis M_fits : M <= INT_MAX.
































End Session.

Section Reachable.
Context `{Toolkit}.







End Reachable.






